(** * nova-spark: the CPU collector and the metrics stream

    A shallow embedding of [dist/collectors/CpuCollector.js] and
    [dist/streaming/MetricsStream.js], followed by the properties of the
    collector lifecycle, of the sampling arithmetic and of the
    buffer/flush protocol.

    Conventions.
    - CPU time counters are whole microsecond counts; they are modelled
      as [Z].  Percentages are JavaScript numbers, modelled as IEEE 754
      binary64 values ([PrimFloat.float]), so that a division by a zero
      window behaves as it does in JavaScript.
    - A method of a class is a function of the receiver's state; a method
      that can throw lives in the [Method] monad below, which threads the
      receiver and stops at the first exception.
    - Arrays are heap objects: the stream holds a reference to its buffer
      and every notification carries a reference to the array it
      delivers. *)

From Stdlib Require Import ZArith Lia PrimFloat Uint63.
From stdpp Require Import base option list gmap strings.

Open Scope Z_scope.

(* ================================================================== *)
(** ** Values shared by both components *)

(** The [metadata] object built by the collector. *)
Record Metadata := {
  unit_ : string;
  raw : Z;
  duration : float
}.

(** A metric record: [{ name, value, timestamp, type, metadata }]. *)
Record Metric := {
  name : string;
  value : float;
  timestamp : Z;
  type_ : string;
  metadata : option Metadata
}.

(** The two configuration values the core reads. *)
Record Config := {
  cpuProfilingDuration : float;
  metricsBufferSize : Z
}.

(** JavaScript exceptions that can arise in the modelled code. *)
Inductive JsError :=
| Error (message : string)
| RangeError (argument : string).

(** How a call completes: normally with a value, or by throwing. *)
Inductive Completion (A : Type) :=
| Normal (a : A)
| Thrown (e : JsError).
Arguments Normal {A} a.
Arguments Thrown {A} e.

(* ================================================================== *)
(** ** The Node.js process as the collector sees it *)

Module Process.

(** The object returned by [process.cpuUsage]: microseconds of user
    and system CPU time. *)
Record CpuUsage := {
  user : Z;
  system : Z
}.

(** The state of the process at one instant: the wall clock in
    milliseconds and the CPU time consumed since the process began. *)
Record Snapshot := {
  clock : Z;
  cpu : CpuUsage
}.

Definition MAX_SAFE_INTEGER : Z := 2 ^ 53 - 1.

(** Node's check on each field of a previous value. *)
Definition previousValueIsValid (num : Z) : bool :=
  (num <=? MAX_SAFE_INTEGER) && (0 <=? num).

(** [process.cpuUsage(prevValue)] evaluated at the instant [at_]:
    without an argument the absolute counters; with one, after
    validating it, the counters minus the argument, field by field. *)
Definition cpuUsage (at_ : Snapshot) (prevValue : option CpuUsage)
  : Completion CpuUsage :=
  match prevValue with
  | Some prev =>
      if negb (previousValueIsValid (user prev)) then
        Thrown (RangeError "prevValue.user")
      else if negb (previousValueIsValid (system prev)) then
        Thrown (RangeError "prevValue.system")
      else
        Normal {| user := user (cpu at_) - user prev;
                  system := system (cpu at_) - system prev |}
  | None => Normal (cpu at_)
  end.

(** [Date.now()] at the instant [at_]. *)
Definition now (at_ : Snapshot) : Z := clock at_.

End Process.

(** A whole microsecond count as a JavaScript number.  The conversion
    is exact on the safe integers, which is where the counters live. *)
Definition toNumber (z : Z) : float :=
  if z <? 0 then PrimFloat.opp (PrimFloat.of_uint63 (Uint63.of_Z (- z)))
  else PrimFloat.of_uint63 (Uint63.of_Z z).

(* ================================================================== *)
(** ** CpuCollector *)

Module CpuCollector.

Import Process.

(** The fields of a collector instance. *)
Record t := {
  config : Config;
  isRunning : bool;
  lastUsage : option CpuUsage
}.

(** A method body: it runs on the receiver, may change it, and either
    returns or throws.  The receiver keeps the assignments made before
    a throw. *)
Definition Method (A : Type) : Type := t → Completion A * t.

#[export] Instance Method_ret : MRet Method :=
  λ A a this, (Normal a, this).

#[export] Instance Method_bind : MBind Method :=
  λ A B f m this,
    match m this with
    | (Normal a, this') => f a this'
    | (Thrown e, this') => (Thrown e, this')
    end.

Definition throw {A} (e : JsError) : Method A :=
  λ this, (Thrown e, this).

(** Lift the completion of a runtime call into a method body. *)
Definition call {A} (c : Completion A) : Method A :=
  λ this, (c, this).

Definition this_isRunning : Method bool :=
  λ this, (Normal (isRunning this), this).

Definition this_lastUsage : Method (option CpuUsage) :=
  λ this, (Normal (lastUsage this), this).

Definition this_config : Method Config :=
  λ this, (Normal (config this), this).

Definition set_lastUsage (u : option CpuUsage) : Method unit :=
  λ this, (Normal tt,
           {| config := config this;
              isRunning := isRunning this;
              lastUsage := u |}).

Definition set_isRunning (b : bool) : Method unit :=
  λ this, (Normal tt,
           {| config := config this;
              isRunning := b;
              lastUsage := lastUsage this |}).

(** [new CpuCollector(config)] *)
Definition new (cfg : Config) : t :=
  {| config := cfg; isRunning := false; lastUsage := None |}.

(** [start()], called at the instant [at_]. *)
Definition start (at_ : Snapshot) : Method unit :=
  running ← this_isRunning;
  if (running : bool) then mret tt
  else
    usage ← call (cpuUsage at_ None);
    set_lastUsage (Some usage);;
    set_isRunning true.

(** [stop()] *)
Definition stop : Method unit :=
  running ← this_isRunning;
  if negb running then mret tt
  else
    set_lastUsage None;;
    set_isRunning false.

(** The three instants at which one [collect()] call reads the
    process: when it is called and takes its first sample (before the
    timer is armed), when the timer has fired and it resumes, and when
    it stores the next baseline. *)
Record Window := {
  windowStart : Snapshot;
  windowEnd : Snapshot;
  rebase : Snapshot
}.

Definition notStarted : JsError :=
  Error "Collector must be started before collecting metrics".

(** [collect()] over the window [w]. *)
Definition collect (w : Window) : Method (list Metric) :=
  running ← this_isRunning;
  if negb running then throw notStarted
  else
    last ← this_lastUsage;
    startUsage ← call (cpuUsage (windowStart w) last);
    (* await new Promise(resolve => setTimeout(resolve, duration)) *)
    endUsage ← call (cpuUsage (windowEnd w) (Some startUsage));
    let timestamp := now (windowEnd w) in
    nextUsage ← call (cpuUsage (rebase w) None);
    set_lastUsage (Some nextUsage);;
    cfg ← this_config;
    let totalTime := PrimFloat.mul (cpuProfilingDuration cfg) 1000%float in
    let userPercent :=
      PrimFloat.mul (PrimFloat.div (toNumber (user endUsage)) totalTime)
                    100%float in
    let systemPercent :=
      PrimFloat.mul (PrimFloat.div (toNumber (system endUsage)) totalTime)
                    100%float in
    mret [ {| name := "cpu.user";
              value := userPercent;
              timestamp := timestamp;
              type_ := "cpu";
              metadata := Some {| unit_ := "percent";
                                  raw := user endUsage;
                                  duration := cpuProfilingDuration cfg |} |};
           {| name := "cpu.system";
              value := systemPercent;
              timestamp := timestamp;
              type_ := "cpu";
              metadata := Some {| unit_ := "percent";
                                  raw := system endUsage;
                                  duration := cpuProfilingDuration cfg |} |} ].

(** [collect()] from its call to its wait: the guard and the first
    sample (lines 90 to 94).  It hands [startUsage] to the rest. *)
Definition collectBegin (at_ : Snapshot) : Method CpuUsage :=
  running ← this_isRunning;
  if negb running then throw notStarted
  else
    last ← this_lastUsage;
    call (cpuUsage at_ last).

(** [collect()] from the end of its wait to its return (lines 97 to
    127), on the collector as it is by then. *)
Definition collectResume (endAt rebaseAt : Snapshot) (startUsage : CpuUsage)
  : Method (list Metric) :=
  endUsage ← call (cpuUsage endAt (Some startUsage));
  let timestamp := now endAt in
  nextUsage ← call (cpuUsage rebaseAt None);
  set_lastUsage (Some nextUsage);;
  cfg ← this_config;
  let totalTime := PrimFloat.mul (cpuProfilingDuration cfg) 1000%float in
  let userPercent :=
    PrimFloat.mul (PrimFloat.div (toNumber (user endUsage)) totalTime)
                  100%float in
  let systemPercent :=
    PrimFloat.mul (PrimFloat.div (toNumber (system endUsage)) totalTime)
                  100%float in
  mret [ {| name := "cpu.user";
            value := userPercent;
            timestamp := timestamp;
            type_ := "cpu";
            metadata := Some {| unit_ := "percent";
                                raw := user endUsage;
                                duration := cpuProfilingDuration cfg |} |};
         {| name := "cpu.system";
            value := systemPercent;
            timestamp := timestamp;
            type_ := "cpu";
            metadata := Some {| unit_ := "percent";
                                raw := system endUsage;
                                duration := cpuProfilingDuration cfg |} |} ].

End CpuCollector.

(* ================================================================== *)
(** ** MetricsStream *)

Module MetricsStream.

(** A reference to an array object. *)
Abbreviation ref := positive.

(** What the stream's methods act on: the array objects on the heap, and
    the notifications emitted so far, oldest first, each with the event
    name and the reference handed to the listeners.  Listeners are
    callers' code; what they do with a delivered array is not part of
    the stream. *)
Record World := {
  heap : gmap ref (list Metric);
  emitted : list (string * ref)
}.

(** The fields of a stream instance. *)
Record t := {
  config : Config;
  buffer : ref
}.

(** The elements of the array behind [r]. *)
Definition read (r : ref) (w : World) : list Metric :=
  default [] (heap w !! r).

(** In-place replacement of the elements of the array behind [r]. *)
Definition write (r : ref) (items : list Metric) (w : World) : World :=
  {| heap := <[r := items]> (heap w); emitted := emitted w |}.

(** A new array object holding [items]. *)
Definition alloc (items : list Metric) (w : World) : ref * World :=
  let r := fresh (dom (heap w)) in
  (r, {| heap := <[r := items]> (heap w); emitted := emitted w |}).

(** [this.emit(event, payload)] *)
Definition emit (event : string) (payload : ref) (w : World) : World :=
  {| heap := heap w; emitted := emitted w ++ [(event, payload)] |}.

(** [new MetricsStream(config)] *)
Definition new (cfg : Config) (w : World) : t * World :=
  let '(r, w1) := alloc [] w in
  ({| config := cfg; buffer := r |}, w1).

(** [flush()] *)
Definition flush (this : t) (w : World) : World :=
  if (0 <? length (read (buffer this) w))%nat then
    let '(snapshot, w1) := alloc (read (buffer this) w) w in
    let w2 := emit "data" snapshot w1 in
    write (buffer this) [] w2
  else w.

(** [push(metrics)] *)
Definition push (this : t) (metrics : list Metric) (w : World) : World :=
  let w1 := write (buffer this) (read (buffer this) w ++ metrics) w in
  if metricsBufferSize (config this) <=? Z.of_nat (length (read (buffer this) w1))
  then flush this w1
  else w1.

(** [clear()] *)
Definition clear (this : t) (w : World) : World :=
  write (buffer this) [] w.

(** One call on a stream, and a sequence of calls in order. *)
Inductive Op :=
| Push (metrics : list Metric)
| Flush
| Clear.

Definition step (this : t) (w : World) (o : Op) : World :=
  match o with
  | Push metrics => push this metrics w
  | Flush => flush this w
  | Clear => clear this w
  end.

Definition run (this : t) (ops : list Op) (w : World) : World :=
  foldl (step this) w ops.

(** References are live: the buffer of [this] is an object of the heap. *)
Definition live (this : t) (w : World) : Prop :=
  is_Some (heap w !! buffer this).

(** The world before any object exists. *)
Definition nothing : World := {| heap := ∅; emitted := [] |}.

End MetricsStream.

(* ================================================================== *)
(** ** The specification's vocabulary *)

(** The utilisation formula as the specification words it:
    [(delta_in_microseconds / (window_duration_ms * 1000)) * 100]. *)
Definition percent (delta : Z) (window_ms : float) : float :=
  PrimFloat.mul
    (PrimFloat.div (toNumber delta) (PrimFloat.mul window_ms 1000%float))
    100%float.

(** The CPU time consumed during the suspension, as the specification
    words it: the absolute counters at the end of the window minus the
    absolute counters at its start. *)
Definition windowUsage (w : CpuCollector.Window) : Process.CpuUsage :=
  {| Process.user :=
       Process.user (Process.cpu (CpuCollector.windowEnd w))
       - Process.user (Process.cpu (CpuCollector.windowStart w));
     Process.system :=
       Process.system (Process.cpu (CpuCollector.windowEnd w))
       - Process.system (Process.cpu (CpuCollector.windowStart w)) |}.

(** The delta one [collect()] call measures: its second sample, taken
    relative to its first. *)
Definition measured (this : CpuCollector.t) (w : CpuCollector.Window)
  : Completion Process.CpuUsage :=
  match Process.cpuUsage (CpuCollector.windowStart w)
                         (CpuCollector.lastUsage this) with
  | Normal startUsage =>
      Process.cpuUsage (CpuCollector.windowEnd w) (Some startUsage)
  | Thrown e => Thrown e
  end.

(** The two metrics [collect] builds from a delta [d], a completion time
    and the configuration. *)
Definition metricsOf (d : Process.CpuUsage) (completed : Z) (cfg : Config)
  : list Metric :=
  [ {| name := "cpu.user";
       value := percent (Process.user d) (cpuProfilingDuration cfg);
       timestamp := completed;
       type_ := "cpu";
       metadata := Some {| unit_ := "percent";
                           raw := Process.user d;
                           duration := cpuProfilingDuration cfg |} |};
    {| name := "cpu.system";
       value := percent (Process.system d) (cpuProfilingDuration cfg);
       timestamp := completed;
       type_ := "cpu";
       metadata := Some {| unit_ := "percent";
                           raw := Process.system d;
                           duration := cpuProfilingDuration cfg |} |} ].

(** The elements in the buffer of [this] at the moment the call [o],
    made in the world [w], reaches its test of the buffer: a push has
    appended its argument by then. *)
Definition pending (this : MetricsStream.t) (w : MetricsStream.World)
    (o : MetricsStream.Op) : list Metric :=
  match o with
  | MetricsStream.Push metrics =>
      MetricsStream.read (MetricsStream.buffer this) w ++ metrics
  | _ => MetricsStream.read (MetricsStream.buffer this) w
  end.

(** What can happen to a collector, one step at a time.  A [collect()]
    call is two steps, up to its wait and from its wait on, and other
    steps may come in between.  [CollectResumed] carries the
    [startUsage] the call holds; it is left unconstrained, so sequences
    of events cover every interleaving of calls, and more. *)
Inductive Event :=
| Started (at_ : Process.Snapshot)
| Stopped
| CollectBegan (at_ : Process.Snapshot)
| CollectResumed (endAt rebaseAt : Process.Snapshot)
                 (startUsage : Process.CpuUsage).

(** The collector after one event and after a sequence of them; a step
    that throws leaves the collector as the method left it. *)
Definition afterEvent (this : CpuCollector.t) (e : Event) : CpuCollector.t :=
  match e with
  | Started at_ => snd (CpuCollector.start at_ this)
  | Stopped => snd (CpuCollector.stop this)
  | CollectBegan at_ => snd (CpuCollector.collectBegin at_ this)
  | CollectResumed endAt rebaseAt startUsage =>
      snd (CpuCollector.collectResume endAt rebaseAt startUsage this)
  end.

Definition afterEvents (es : list Event) (this : CpuCollector.t)
  : CpuCollector.t :=
  foldl afterEvent this es.

(** All the metrics handed to listeners so far, in the order of the
    notifications. *)
Definition delivered (w : MetricsStream.World) : list Metric :=
  concat ((λ e, MetricsStream.read (snd e) w) <$> MetricsStream.emitted w).

(** The argument of a call on a stream, seen as a batch of metrics. *)
Definition batch (o : MetricsStream.Op) : list Metric :=
  match o with
  | MetricsStream.Push metrics => metrics
  | _ => []
  end.

(** All the metrics pushed by a sequence of calls, in order. *)
Definition pushed (ops : list MetricsStream.Op) : list Metric :=
  concat (batch <$> ops).

(** The arrays already delivered are objects of the heap, none of them
    the buffer of [this], and the buffer is an object too. *)
Definition settled (this : MetricsStream.t) (w : MetricsStream.World)
  : Prop :=
  MetricsStream.live this w
  ∧ Forall (λ e, is_Some (MetricsStream.heap w !! snd e)
                 ∧ snd e ≠ MetricsStream.buffer this)
           (MetricsStream.emitted w).

(** Sample data for the closed examples. *)
Module Sample.

Definition cfg : Config :=
  {| cpuProfilingDuration := 500%float; metricsBufferSize := 3 |}.

Definition instant (t u s : Z) : Process.Snapshot :=
  {| Process.clock := t;
     Process.cpu := {| Process.user := u; Process.system := s |} |}.

(** A collector started when the process had already used 1000 us of
    user time and 500 us of system time. *)
Definition started : CpuCollector.t :=
  snd (CpuCollector.start (instant 0 1000 500) (CpuCollector.new cfg)).

(** A 500 ms window during which the process uses 300 us of user time
    and 100 us of system time. *)
Definition window : CpuCollector.Window :=
  {| CpuCollector.windowStart := instant 10 1200 600;
     CpuCollector.windowEnd := instant 510 1500 700;
     CpuCollector.rebase := instant 510 1501 700 |}.

Definition metric (n : Z) : Metric :=
  {| name := "sample"; value := 0%float; timestamp := n;
     type_ := "test"; metadata := None |}.

(** A window at whose start the user counter reads less than the
    baseline of [started]. *)
Definition rewound : CpuCollector.Window :=
  {| CpuCollector.windowStart := instant 10 900 600;
     CpuCollector.windowEnd := instant 510 1500 700;
     CpuCollector.rebase := instant 510 1501 700 |}.

(** The same configuration with a threshold of zero. *)
Definition eager : Config :=
  {| cpuProfilingDuration := 500%float; metricsBufferSize := 0 |}.

(** A stream constructed in an empty world, and that world. *)
Definition stream (c : Config) : MetricsStream.t :=
  fst (MetricsStream.new c MetricsStream.nothing).

Definition world (c : Config) : MetricsStream.World :=
  snd (MetricsStream.new c MetricsStream.nothing).

End Sample.

(* ================================================================== *)
(** ** CpuCollector: what the methods compute *)

Section CollectorFacts.

Import Process CpuCollector.

(** Unfolds the plumbing of the [Method] monad. *)
Ltac method_simpl :=
  unfold mbind, mret, Method_bind, Method_ret, throw, call,
    this_isRunning, this_lastUsage, this_config,
    set_lastUsage, set_isRunning in *;
  cbn in *.

Lemma start_stopped at_ this :
  isRunning this = false →
  start at_ this =
    (Normal tt, {| config := config this; isRunning := true;
                   lastUsage := Some (cpu at_) |}).
Proof. intros H. unfold start. method_simpl. rewrite H. reflexivity. Qed.

Lemma start_running at_ this :
  isRunning this = true → start at_ this = (Normal tt, this).
Proof. intros H. unfold start. method_simpl. rewrite H. reflexivity. Qed.

Lemma stop_running this :
  isRunning this = true →
  stop this =
    (Normal tt, {| config := config this; isRunning := false;
                   lastUsage := None |}).
Proof. intros H. unfold stop. method_simpl. rewrite H. reflexivity. Qed.

Lemma stop_stopped this :
  isRunning this = false → stop this = (Normal tt, this).
Proof. intros H. unfold stop. method_simpl. rewrite H. reflexivity. Qed.

Lemma start_then_running at_ this : isRunning (snd (start at_ this)) = true.
Proof.
  destruct (isRunning this) eqn:E.
  - rewrite start_running; auto.
  - rewrite start_stopped; auto.
Qed.

Lemma stop_then_stopped this : isRunning (snd (stop this)) = false.
Proof.
  destruct (isRunning this) eqn:E.
  - rewrite stop_running; auto.
  - rewrite stop_stopped; auto.
Qed.

(** [collect] on a stopped collector. *)
Lemma collect_stopped w this :
  isRunning this = false → collect w this = (Thrown notStarted, this).
Proof. intros H. unfold collect. method_simpl. rewrite H. reflexivity. Qed.

(** [collect] on a running collector, in one equation. *)
Lemma collect_running w this :
  isRunning this = true →
  collect w this =
    match measured this w with
    | Normal d =>
        (Normal (metricsOf d (clock (windowEnd w)) (config this)),
         {| config := config this; isRunning := true;
            lastUsage := Some (cpu (rebase w)) |})
    | Thrown e => (Thrown e, this)
    end.
Proof.
  intros H. unfold collect, measured, metricsOf, percent, now, cpuUsage.
  method_simpl. rewrite H. cbn.
  repeat case_match; simplify_eq; rewrite ?H; reflexivity.
Qed.

(** With a stored baseline [base], a successful measurement is the usage
    of the window plus the baseline itself. *)
Lemma measured_with_baseline this w base d :
  lastUsage this = Some base →
  measured this w = Normal d →
  user d = user (windowUsage w) + user base
  ∧ system d = system (windowUsage w) + system base.
Proof.
  intros Hb. unfold measured, cpuUsage, windowUsage. rewrite Hb.
  repeat case_match; intros; simplify_eq; cbn; lia.
Qed.

(** Without a stored baseline the first sample is absolute, and a
    successful measurement is exactly the usage of the window. *)
Lemma measured_without_baseline this w d :
  lastUsage this = None →
  measured this w = Normal d →
  d = windowUsage w.
Proof.
  intros Hb. unfold measured, cpuUsage, windowUsage. rewrite Hb.
  repeat case_match; intros; simplify_eq; reflexivity.
Qed.

(** The measurement goes through when the counters have not gone
    backwards since the baseline and all of them are safe integers. *)
Lemma measured_succeeds this w base :
  lastUsage this = Some base →
  0 ≤ user base ≤ user (cpu (windowStart w)) →
  0 ≤ system base ≤ system (cpu (windowStart w)) →
  user (cpu (windowStart w)) ≤ MAX_SAFE_INTEGER →
  system (cpu (windowStart w)) ≤ MAX_SAFE_INTEGER →
  ∃ d, measured this w = Normal d.
Proof.
  intros Hb Hu Hs Hum Hsm. unfold measured, cpuUsage. rewrite Hb.
  assert (V : ∀ x y, 0 ≤ x ≤ y → y ≤ MAX_SAFE_INTEGER →
              previousValueIsValid x = true
              ∧ previousValueIsValid (y - x) = true).
  { intros x y Hxy Hy. unfold previousValueIsValid.
    rewrite !andb_true_iff, !Z.leb_le. lia. }
  destruct (V _ _ Hu Hum) as [-> E1], (V _ _ Hs Hsm) as [-> E2]. cbn.
  rewrite E1, E2. cbn. eauto.
Qed.

End CollectorFacts.

(* ================================================================== *)
(** ** CpuCollector: the properties *)

(** C1, evaluated on the code.  A collector whose baseline is 1000 us of
    user time and 500 us of system time samples a window in which the
    process uses 300 us and 100 us.  The [raw] fields of the result are
    1300 and 600: the usage of the window plus the whole baseline. *)
Theorem collect_raw_counts_the_baseline :
  windowUsage Sample.window = {| Process.user := 300; Process.system := 100 |}
  ∧ CpuCollector.lastUsage Sample.started
    = Some {| Process.user := 1000; Process.system := 500 |}
  ∧ ∃ mu msys this',
      CpuCollector.collect Sample.window Sample.started
      = (Normal [mu; msys], this')
      ∧ raw <$> metadata mu = Some 1300
      ∧ raw <$> metadata msys = Some 600.
Proof.
  split; [reflexivity|]. split; [reflexivity|].
  eexists _, _, _. split; [vm_compute; reflexivity|].
  split; reflexivity.
Qed.

Section CollectorProperties.

Import Process CpuCollector.

(** Every successful [collect] was made on a running collector and
    returns the metrics of the delta it measured. *)
Lemma collect_normal w this ms this' :
  collect w this = (Normal ms, this') →
  ∃ d, measured this w = Normal d
       ∧ ms = metricsOf d (clock (windowEnd w)) (config this)
       ∧ this' = {| config := config this; isRunning := true;
                    lastUsage := Some (cpu (rebase w)) |}.
Proof.
  destruct (isRunning this) eqn:R.
  - rewrite collect_running by assumption.
    destruct (measured this w) as [d|e]; intros E; simplify_eq. eauto.
  - rewrite collect_stopped by assumption. discriminate.
Qed.

(** X8.  [collect] returns on a running collector whose baseline the
    counters have not fallen below, all of them safe integers. *)
Lemma collect_succeeds w this base :
  isRunning this = true →
  lastUsage this = Some base →
  0 ≤ user base ≤ user (cpu (windowStart w)) →
  0 ≤ system base ≤ system (cpu (windowStart w)) →
  user (cpu (windowStart w)) ≤ MAX_SAFE_INTEGER →
  system (cpu (windowStart w)) ≤ MAX_SAFE_INTEGER →
  ∃ ms this', collect w this = (Normal ms, this').
Proof.
  intros R Hb Hu Hs Hum Hsm.
  destruct (measured_succeeds this w base Hb Hu Hs Hum Hsm) as [d Hd].
  rewrite collect_running, Hd by assumption. eauto.
Qed.

(** C2.  For a successful [collect] over a window of D milliseconds that
    measured a user-mode delta of U microseconds and a system-mode delta
    of S microseconds, the metric named 'cpu.user' has value
    (U / (D * 1000)) * 100 and the metric named 'cpu.system' has value
    (S / (D * 1000)) * 100. *)
Theorem collect_percent_formula w this ms this' :
  collect w this = (Normal ms, this') →
  ∃ U S mu msys,
    measured this w = Normal {| user := U; system := S |}
    ∧ ms = [mu; msys]
    ∧ name mu = "cpu.user"
    ∧ value mu
      = (toNumber U / (cpuProfilingDuration (config this) * 1000) * 100)%float
    ∧ name msys = "cpu.system"
    ∧ value msys
      = (toNumber S / (cpuProfilingDuration (config this) * 1000) * 100)%float.
Proof.
  intros E. apply collect_normal in E as ([U S] & Hd & -> & _).
  eexists U, S, _, _. repeat split. exact Hd.
Qed.

Lemma collect_percent_formula_witness :
  ∃ U S mu msys,
    measured Sample.started Sample.window = Normal {| user := U; system := S |}
    ∧ metricsOf {| user := 1300; system := 600 |} 510 Sample.cfg = [mu; msys]
    ∧ name mu = "cpu.user"
    ∧ value mu = (toNumber U / (500 * 1000) * 100)%float
    ∧ name msys = "cpu.system"
    ∧ value msys = (toNumber S / (500 * 1000) * 100)%float.
Proof.
  apply (collect_percent_formula Sample.window Sample.started
           (metricsOf {| user := 1300; system := 600 |} 510 Sample.cfg)
           (snd (collect Sample.window Sample.started))).
  vm_compute. reflexivity.
Defined.

(** C3.  On a collector whose running flag is false, in particular a
    freshly constructed one and one that has been stopped, [collect]
    throws the invalid-state error, returns no metrics, and leaves the
    running flag and the stored baseline as they were. *)
Theorem collect_when_not_running :
  (∀ w this, isRunning this = false →
             collect w this = (Thrown notStarted, this))
  ∧ (∀ w cfg, collect w (new cfg) = (Thrown notStarted, new cfg))
  ∧ (∀ w this, collect w (snd (stop this))
               = (Thrown notStarted, snd (stop this))).
Proof.
  split; [|split]; intros.
  - by apply collect_stopped.
  - by apply collect_stopped.
  - apply collect_stopped, stop_then_stopped.
Qed.

Lemma collect_when_not_running_witness :
  collect Sample.window (snd (stop Sample.started))
  = (Thrown notStarted, snd (stop Sample.started)).
Proof.
  apply (proj1 collect_when_not_running Sample.window
           (snd (stop Sample.started))).
  reflexivity.
Defined.

(** C7.  [start] and [stop] are idempotent: a second [start] right after
    a first leaves the state of the first, with the baseline the first
    one stored, and a second [stop] leaves the state of the first. *)
Theorem lifecycle_idempotent this at1 at2 :
  (start at1 ;; start at2) this = start at1 this
  ∧ (stop ;; stop) this = stop this
  ∧ (isRunning this = false →
     lastUsage (snd ((start at1 ;; start at2) this)) = Some (cpu at1)).
Proof.
  assert (S2 : (start at1 ;; start at2) this = start at1 this).
  { pose proof (start_then_running at1 this) as R.
    change ((start at1 ;; start at2) this)
      with (Method_bind _ _ (λ _, start at2) (start at1) this).
    unfold Method_bind.
    destruct (start at1 this) as [[[]|e] this1] eqn:E; [|reflexivity].
    cbn in R. by rewrite start_running. }
  split; [exact S2|]. split.
  - pose proof (stop_then_stopped this) as R.
    change ((stop ;; stop) this)
      with (Method_bind _ _ (λ _, stop) stop this).
    unfold Method_bind.
    destruct (stop this) as [[[]|e] this1] eqn:E; [|reflexivity].
    cbn in R. by rewrite stop_stopped.
  - intros H. rewrite S2, start_stopped by assumption. reflexivity.
Qed.

Lemma lifecycle_idempotent_witness :
  lastUsage (snd ((start (Sample.instant 0 1000 500) ;;
                   start (Sample.instant 7 2000 900)) (new Sample.cfg)))
  = Some {| user := 1000; system := 500 |}.
Proof.
  apply (proj2 (proj2 (lifecycle_idempotent (new Sample.cfg)
                         (Sample.instant 0 1000 500)
                         (Sample.instant 7 2000 900)))).
  reflexivity.
Defined.

(** C8.  A successful [collect] emits two metrics, one per category.
    Each has type "cpu", the percentage of its category as value, the
    clock reading made once the delay is over as timestamp, and a
    metadata object holding the unit "percent", the raw microsecond
    delta of its category and the configured window duration. *)
Theorem collect_metric_shape w this ms this' :
  collect w this = (Normal ms, this') →
  ∃ d mu msys,
    measured this w = Normal d
    ∧ ms = [mu; msys]
    ∧ (name mu = "cpu.user"
       ∧ type_ mu = "cpu"
       ∧ value mu = percent (user d) (cpuProfilingDuration (config this))
       ∧ timestamp mu = now (windowEnd w)
       ∧ metadata mu
         = Some {| unit_ := "percent";
                   raw := user d;
                   duration := cpuProfilingDuration (config this) |})
    ∧ (name msys = "cpu.system"
       ∧ type_ msys = "cpu"
       ∧ value msys = percent (system d) (cpuProfilingDuration (config this))
       ∧ timestamp msys = now (windowEnd w)
       ∧ metadata msys
         = Some {| unit_ := "percent";
                   raw := system d;
                   duration := cpuProfilingDuration (config this) |}).
Proof.
  intros E. apply collect_normal in E as (d & Hd & -> & _).
  eexists d, _, _. split; [exact Hd|]. split; [reflexivity|].
  split; repeat split.
Qed.

Lemma collect_metric_shape_witness :
  ∃ ms this',
    collect Sample.window Sample.started = (Normal ms, this')
    ∧ ∃ d mu msys,
        measured Sample.started Sample.window = Normal d
        ∧ ms = [mu; msys]
        ∧ (name mu = "cpu.user"
           ∧ type_ mu = "cpu"
           ∧ value mu = percent (user d) 500
           ∧ timestamp mu = 510
           ∧ metadata mu
             = Some {| unit_ := "percent"; raw := user d;
                       duration := 500%float |})
        ∧ (name msys = "cpu.system"
           ∧ type_ msys = "cpu"
           ∧ value msys = percent (system d) 500
           ∧ timestamp msys = 510
           ∧ metadata msys
             = Some {| unit_ := "percent"; raw := system d;
                       duration := 500%float |}).
Proof.
  exists (match fst (collect Sample.window Sample.started) with
          | Normal ms => ms
          | Thrown _ => []
          end), (snd (collect Sample.window Sample.started)).
  split; [vm_compute; reflexivity|].
  apply (collect_metric_shape Sample.window Sample.started _
           (snd (collect Sample.window Sample.started))).
  vm_compute. reflexivity.
Defined.

(** C10.  A successful [collect] returns exactly two metrics, the first
    named 'cpu.user' and the second 'cpu.system', with one and the same
    timestamp. *)
Theorem collect_returns_user_then_system w this ms this' :
  collect w this = (Normal ms, this') →
  ∃ mu msys,
    ms = [mu; msys]
    ∧ name mu = "cpu.user"
    ∧ name msys = "cpu.system"
    ∧ timestamp mu = timestamp msys.
Proof.
  intros E. apply collect_normal in E as (d & _ & -> & _).
  eexists _, _. repeat split.
Qed.

Lemma collect_returns_user_then_system_witness :
  ∃ mu msys,
    metricsOf {| user := 1300; system := 600 |} 510 Sample.cfg = [mu; msys]
    ∧ name mu = "cpu.user"
    ∧ name msys = "cpu.system"
    ∧ timestamp mu = timestamp msys.
Proof.
  apply (collect_returns_user_then_system Sample.window Sample.started
           (metricsOf {| user := 1300; system := 600 |} 510 Sample.cfg)
           (snd (collect Sample.window Sample.started))).
  vm_compute. reflexivity.
Defined.

End CollectorProperties.

(* ================================================================== *)
(** ** MetricsStream: arrays, flush and push *)

Section StreamFacts.

Import MetricsStream.

Implicit Types (this : MetricsStream.t) (w : World) (r : positive)
  (items metrics : list Metric).

Lemma read_write_eq r items w : read r (write r items w) = items.
Proof. unfold read, write. cbn. by rewrite lookup_insert_eq. Qed.

Lemma read_write_ne r r' items w :
  r ≠ r' → read r' (write r items w) = read r' w.
Proof. intros. unfold read, write. cbn. by rewrite lookup_insert_ne. Qed.

Lemma read_emit r event payload w : read r (emit event payload w) = read r w.
Proof. reflexivity. Qed.

Lemma read_live r w items : heap w !! r = Some items → read r w = items.
Proof. unfold read. by intros ->. Qed.

(** An allocated array is a new object. *)
Lemma alloc_fresh items w : heap w !! (alloc items w).1 = None.
Proof. apply not_elem_of_dom, is_fresh. Qed.

Lemma alloc_lookup items w :
  heap (alloc items w).2 !! (alloc items w).1 = Some items.
Proof. cbn. by rewrite lookup_insert_eq. Qed.

Lemma alloc_other items w r :
  is_Some (heap w !! r) → heap (alloc items w).2 !! r = heap w !! r.
Proof.
  intros [x Hx]. cbn. rewrite lookup_insert_ne; [done|].
  intros E. pose proof (alloc_fresh items w) as F. cbn in F. congruence.
Qed.

(** [flush] on an empty buffer changes nothing. *)
Lemma flush_empty this w : read (buffer this) w = [] → flush this w = w.
Proof. intros E. unfold flush. by rewrite E. Qed.

(** [flush] on a non-empty buffer: copy, emit, truncate. *)
Lemma flush_nonempty this w :
  read (buffer this) w ≠ [] →
  flush this w =
    write (buffer this) []
      (emit "data" (alloc (read (buffer this) w) w).1
         (alloc (read (buffer this) w) w).2).
Proof.
  intros E. unfold flush.
  destruct (read (buffer this) w) as [|m l]; [done|]. reflexivity.
Qed.

(** What a flush of a non-empty buffer leaves behind. *)
Lemma flush_nonempty_effect this w :
  live this w →
  read (buffer this) w ≠ [] →
  ∃ snapshot,
    heap w !! snapshot = None
    ∧ emitted (flush this w) = emitted w ++ [("data", snapshot)]
    ∧ heap (flush this w) !! snapshot = Some (read (buffer this) w)
    ∧ read (buffer this) (flush this w) = [].
Proof.
  intros L E. rewrite flush_nonempty by assumption.
  set (items := read (buffer this) w).
  exists (alloc items w).1.
  pose proof (alloc_fresh items w) as F.
  split; [exact F|]. split; [reflexivity|]. split.
  - cbn. rewrite lookup_insert_ne, lookup_insert_eq; [done|].
    intros Eq. destruct L as [x Hx]. cbn in F. congruence.
  - apply read_write_eq.
Qed.

Lemma flush_buffer_empty this w : read (buffer this) (flush this w) = [].
Proof.
  destruct (read (buffer this) w) as [|m l] eqn:E.
  - by rewrite flush_empty.
  - rewrite flush_nonempty by (rewrite E; done). apply read_write_eq.
Qed.

(** [push] appends and then compares the length with the threshold. *)
Lemma push_below this metrics w :
  Z.of_nat (length (read (buffer this) w ++ metrics))
    < metricsBufferSize (config this) →
  push this metrics w
  = write (buffer this) (read (buffer this) w ++ metrics) w.
Proof.
  intros H. unfold push. rewrite read_write_eq.
  destruct (Z.leb_spec (metricsBufferSize (config this))
              (Z.of_nat (length (read (buffer this) w ++ metrics))));
    [lia|reflexivity].
Qed.

Lemma push_reaching this metrics w :
  metricsBufferSize (config this)
    ≤ Z.of_nat (length (read (buffer this) w ++ metrics)) →
  push this metrics w
  = flush this (write (buffer this) (read (buffer this) w ++ metrics) w).
Proof.
  intros H. unfold push. rewrite read_write_eq.
  destruct (Z.leb_spec (metricsBufferSize (config this))
              (Z.of_nat (length (read (buffer this) w ++ metrics))));
    [reflexivity|lia].
Qed.

Lemma write_live this items w : live this (write (buffer this) items w).
Proof. unfold live, write. cbn. rewrite lookup_insert_eq. eauto. Qed.

(** A push that reaches the threshold with something in the buffer:
    one notification with the whole buffer, and an empty buffer. *)
Lemma push_reaching_effect this metrics w :
  live this w →
  metricsBufferSize (config this)
    ≤ Z.of_nat (length (read (buffer this) w ++ metrics)) →
  read (buffer this) w ++ metrics ≠ [] →
  ∃ snapshot,
    heap w !! snapshot = None
    ∧ emitted (push this metrics w) = emitted w ++ [("data", snapshot)]
    ∧ heap (push this metrics w) !! snapshot
      = Some (read (buffer this) w ++ metrics)
    ∧ read (buffer this) (push this metrics w) = [].
Proof.
  intros L H N. rewrite push_reaching by assumption.
  set (w1 := write (buffer this) (read (buffer this) w ++ metrics) w).
  destruct (flush_nonempty_effect this w1) as (s & F & Em & Hs & B).
  - apply write_live.
  - unfold w1. by rewrite read_write_eq.
  - exists s. unfold w1 in *. rewrite read_write_eq in Hs.
    split; [|done].
    destruct (decide (s = buffer this)) as [->|Ne].
    + cbn in F. by rewrite lookup_insert_eq in F.
    + cbn in F. by rewrite lookup_insert_ne in F.
Qed.

End StreamFacts.

Section StreamFrame.

Import MetricsStream.

Implicit Types (this : MetricsStream.t) (w : World) (r : positive)
  (items metrics : list Metric) (o : Op) (ops : list Op).

Lemma write_keeps this items w r :
  r ≠ buffer this → heap (write (buffer this) items w) !! r = heap w !! r.
Proof. intros. cbn. by rewrite lookup_insert_ne. Qed.

Lemma flush_live this w : live this w → live this (flush this w).
Proof.
  intros L. destruct (read (buffer this) w) as [|m l] eqn:E.
  - by rewrite flush_empty.
  - rewrite flush_nonempty by (rewrite E; done). apply write_live.
Qed.

Lemma flush_keeps this w r :
  is_Some (heap w !! r) → r ≠ buffer this →
  heap (flush this w) !! r = heap w !! r.
Proof.
  intros In Ne. destruct (read (buffer this) w) as [|m l] eqn:E.
  - by rewrite flush_empty.
  - rewrite flush_nonempty by (rewrite E; done).
    rewrite write_keeps by assumption. by apply alloc_other.
Qed.

Lemma step_live this w o : live this w → live this (step this w o).
Proof.
  intros L. destruct o as [metrics| |]; cbn.
  - unfold push. case_match; [apply flush_live|]; apply write_live.
  - by apply flush_live.
  - apply write_live.
Qed.

(** A call on the stream touches its buffer and makes new objects; every
    other object of the heap keeps its elements. *)
Lemma step_keeps this w o r :
  is_Some (heap w !! r) → r ≠ buffer this →
  heap (step this w o) !! r = heap w !! r.
Proof.
  intros In Ne. destruct o as [metrics| |]; cbn.
  - unfold push. case_match.
    + rewrite flush_keeps; [by apply write_keeps| |done].
      by rewrite write_keeps.
    + by apply write_keeps.
  - by apply flush_keeps.
  - by apply write_keeps.
Qed.

Lemma run_keeps this ops w r :
  is_Some (heap w !! r) → r ≠ buffer this →
  heap (run this ops w) !! r = heap w !! r.
Proof.
  revert w. induction ops as [|o ops IH]; intros w In Ne; [done|].
  cbn. fold (run this ops (step this w o)).
  rewrite IH; [by apply step_keeps| |done].
  by rewrite step_keeps.
Qed.

Lemma run_snoc this ops o w :
  run this (ops ++ [o]) w = step this (run this ops w) o.
Proof. unfold run. by rewrite foldl_snoc. Qed.

(** Which calls emit, and what. *)
Lemma step_emitted this w o :
  live this w →
  emitted (step this w o) = emitted w
  ∨ ∃ snapshot,
      heap w !! snapshot = None
      ∧ snapshot ≠ buffer this
      ∧ emitted (step this w o) = emitted w ++ [("data", snapshot)]
      ∧ heap (step this w o) !! snapshot = Some (pending this w o).
Proof.
  intros L.
  assert (F : ∀ w', live this w' → emitted w' = emitted w →
              (∀ s, heap w' !! s = None → heap w !! s = None) →
              emitted (flush this w') = emitted w
              ∨ ∃ snapshot,
                  heap w !! snapshot = None
                  ∧ snapshot ≠ buffer this
                  ∧ emitted (flush this w') = emitted w ++ [("data", snapshot)]
                  ∧ heap (flush this w') !! snapshot
                    = Some (read (buffer this) w')).
  { intros w' L' Em Sub. destruct (read (buffer this) w') as [|m l] eqn:E.
    - left. by rewrite flush_empty.
    - right. destruct (flush_nonempty_effect this w' L') as (s & Fs & Es & Hs & _).
      { rewrite E; done. }
      exists s. rewrite Es, Em, <- E.
      split; [by apply Sub|]. split; [|done].
      intros ->. destruct L' as [x Hx]. congruence. }
  destruct o as [metrics| |]; cbn.
  - unfold push. case_match.
    + destruct (F (write (buffer this) (read (buffer this) w ++ metrics) w))
        as [Hl|(s & Fs & Ne & Es & Hs)].
      * apply write_live.
      * done.
      * intros s. cbn. destruct (decide (buffer this = s)) as [->|Ne].
        -- by rewrite lookup_insert_eq.
        -- by rewrite lookup_insert_ne.
      * by left.
      * right. exists s. rewrite read_write_eq in Hs. done.
    + by left.
  - by apply F.
  - by left.
Qed.

End StreamFrame.

(* ================================================================== *)
(** ** MetricsStream: the properties *)

Section StreamProperties.

Import MetricsStream.

Implicit Types (this : MetricsStream.t) (w : World) (r : positive)
  (items metrics : list Metric) (o : Op) (ops : list Op).

(** A stream is live in the world its constructor returns, and stays so. *)
Lemma new_live cfg w0 : live (new cfg w0).1 (new cfg w0).2.
Proof. unfold live, new. cbn. rewrite lookup_insert_eq. eauto. Qed.

Lemma new_buffer_empty cfg w0 : read (buffer (new cfg w0).1) (new cfg w0).2 = [].
Proof. unfold read, new. cbn. by rewrite lookup_insert_eq. Qed.

Lemma run_live this ops w : live this w → live this (run this ops w).
Proof.
  revert w. induction ops as [|o ops IH]; intros w L; [done|].
  cbn. apply IH. by apply step_live.
Qed.

(** C4 fails at a threshold of zero: pushing zero metrics into the empty
    buffer of a new stream reaches the threshold, calls [flush] on an
    empty buffer, and no notification is emitted. *)
Lemma push_nothing_at_threshold_zero :
  read (buffer (Sample.stream Sample.eager)) (Sample.world Sample.eager) = []
  ∧ Z.of_nat (length (@nil Metric))
    = metricsBufferSize (config (Sample.stream Sample.eager))
  ∧ emitted (push (Sample.stream Sample.eager) [] (Sample.world Sample.eager))
    = []
  ∧ ¬ ∃ snapshot,
        emitted (push (Sample.stream Sample.eager) []
                   (Sample.world Sample.eager))
        = emitted (Sample.world Sample.eager) ++ [("data", snapshot)].
Proof.
  split; [reflexivity|]. split; [reflexivity|]. split; [reflexivity|].
  intros [s Hs]. vm_compute in Hs. discriminate.
Qed.

(** C4, amended.  [push] appends the given metrics to the buffer in their
    order and, when the length then reaches the threshold T, calls
    [flush] once before returning.  For T ≥ 1, pushing T metrics into an
    empty buffer gives one "data" notification with all T metrics and an
    empty buffer, and pushing T - 1 gives no notification and a buffer of
    those T - 1 metrics.  With T ≤ 1, zero and negative thresholds
    included, every push of at least one metric gives one notification
    with the whole buffer. *)
Theorem push_protocol this metrics w :
  live this w →
  (Z.of_nat (length (read (buffer this) w ++ metrics))
     < metricsBufferSize (config this) →
   emitted (push this metrics w) = emitted w
   ∧ read (buffer this) (push this metrics w)
     = read (buffer this) w ++ metrics)
  ∧ (metricsBufferSize (config this)
       ≤ Z.of_nat (length (read (buffer this) w ++ metrics)) →
     push this metrics w
     = flush this (write (buffer this) (read (buffer this) w ++ metrics) w)
     ∧ read (buffer this) (push this metrics w) = [])
  ∧ (read (buffer this) w = [] →
     1 ≤ metricsBufferSize (config this) →
     Z.of_nat (length metrics) = metricsBufferSize (config this) →
     ∃ snapshot,
       heap w !! snapshot = None
       ∧ emitted (push this metrics w) = emitted w ++ [("data", snapshot)]
       ∧ heap (push this metrics w) !! snapshot = Some metrics
       ∧ read (buffer this) (push this metrics w) = [])
  ∧ (read (buffer this) w = [] →
     Z.of_nat (length metrics) = metricsBufferSize (config this) - 1 →
     emitted (push this metrics w) = emitted w
     ∧ read (buffer this) (push this metrics w) = metrics)
  ∧ (metricsBufferSize (config this) ≤ 1 →
     metrics ≠ [] →
     ∃ snapshot,
       heap w !! snapshot = None
       ∧ emitted (push this metrics w) = emitted w ++ [("data", snapshot)]
       ∧ heap (push this metrics w) !! snapshot
         = Some (read (buffer this) w ++ metrics)
       ∧ read (buffer this) (push this metrics w) = []).
Proof.
  intros L. repeat apply conj.
  - intros H. rewrite push_below by assumption.
    split; [reflexivity|apply read_write_eq].
  - intros H. rewrite push_reaching by assumption.
    split; [reflexivity|apply flush_buffer_empty].
  - intros E T1 Hlen.
    destruct (push_reaching_effect this metrics w L) as (s & Hs).
    + rewrite E. cbn. lia.
    + rewrite E. cbn. intros ->. cbn in Hlen. lia.
    + rewrite E in Hs. cbn in Hs. eauto.
  - intros E Hlen. rewrite push_below by (rewrite E; cbn; lia).
    rewrite E. split; [reflexivity|apply read_write_eq].
  - intros T1 N. apply push_reaching_effect; [done| |].
    + rewrite length_app. destruct metrics; [done|]. cbn. lia.
    + destruct (read (buffer this) w); destruct metrics; done.
Qed.

Lemma push_protocol_witness :
  (∃ snapshot,
     heap (Sample.world Sample.cfg) !! snapshot = None
     ∧ emitted (push (Sample.stream Sample.cfg)
                  [Sample.metric 1; Sample.metric 2; Sample.metric 3]
                  (Sample.world Sample.cfg))
       = emitted (Sample.world Sample.cfg) ++ [("data", snapshot)]
     ∧ heap (push (Sample.stream Sample.cfg)
               [Sample.metric 1; Sample.metric 2; Sample.metric 3]
               (Sample.world Sample.cfg)) !! snapshot
       = Some [Sample.metric 1; Sample.metric 2; Sample.metric 3]
     ∧ read (buffer (Sample.stream Sample.cfg))
         (push (Sample.stream Sample.cfg)
            [Sample.metric 1; Sample.metric 2; Sample.metric 3]
            (Sample.world Sample.cfg)) = []).
Proof.
  refine (proj1 (proj2 (proj2
    (push_protocol (Sample.stream Sample.cfg)
       [Sample.metric 1; Sample.metric 2; Sample.metric 3]
       (Sample.world Sample.cfg) _))) _ _ _).
  - apply new_live.
  - reflexivity.
  - vm_compute. discriminate.
  - reflexivity.
Defined.

(** C5.  [flush] on a non-empty buffer emits exactly one "data"
    notification, carrying a new array with the elements of the buffer in
    their order, and leaves the buffer empty; [flush] on an empty buffer
    emits nothing and changes nothing. *)
Theorem flush_protocol this w :
  live this w →
  (read (buffer this) w ≠ [] →
   ∃ snapshot,
     heap w !! snapshot = None
     ∧ emitted (flush this w) = emitted w ++ [("data", snapshot)]
     ∧ heap (flush this w) !! snapshot = Some (read (buffer this) w)
     ∧ read (buffer this) (flush this w) = [])
  ∧ (read (buffer this) w = [] →
     flush this w = w
     ∧ emitted (flush this w) = emitted w
     ∧ read (buffer this) (flush this w) = []).
Proof.
  intros L. split.
  - by apply flush_nonempty_effect.
  - intros E. rewrite flush_empty by assumption. done.
Qed.

Lemma flush_protocol_witness :
  flush (Sample.stream Sample.cfg) (Sample.world Sample.cfg)
  = Sample.world Sample.cfg
  ∧ emitted (flush (Sample.stream Sample.cfg) (Sample.world Sample.cfg))
    = emitted (Sample.world Sample.cfg)
  ∧ read (buffer (Sample.stream Sample.cfg))
      (flush (Sample.stream Sample.cfg) (Sample.world Sample.cfg)) = [].
Proof.
  refine (proj2 (flush_protocol (Sample.stream Sample.cfg)
                   (Sample.world Sample.cfg) _) _).
  - apply new_live.
  - reflexivity.
Defined.

(** C6.  The array delivered by a flush, whether [flush] was called
    directly or by a [push] that reached the threshold, is not the
    buffer: it holds the elements the buffer had at that moment, and it
    still holds them after any further pushes, flushes and clears. *)
Theorem delivered_snapshot_is_isolated this w o snapshot :
  live this w →
  emitted (step this w o) = emitted w ++ [("data", snapshot)] →
  snapshot ≠ buffer this
  ∧ heap (step this w o) !! snapshot = Some (pending this w o)
  ∧ ∀ ops, heap (run this ops (step this w o)) !! snapshot
           = Some (pending this w o).
Proof.
  intros L Em. destruct (step_emitted this w o L) as [Same|(s & F & Ne & Es & Hs)].
  - rewrite Same in Em. apply (f_equal length) in Em.
    rewrite length_app in Em. cbn in Em. lia.
  - rewrite Es in Em. apply app_inj_tail in Em as [_ Eq].
    injection Eq as ->. split; [done|]. split; [done|].
    intros ops. rewrite run_keeps; [done| |done]. rewrite Hs. eauto.
Qed.

Lemma delivered_snapshot_is_isolated_witness :
  2%positive ≠ buffer (Sample.stream Sample.cfg)
  ∧ heap (step (Sample.stream Sample.cfg) (Sample.world Sample.cfg)
            (Push [Sample.metric 1; Sample.metric 2; Sample.metric 3]))
      !! 2%positive
    = Some (pending (Sample.stream Sample.cfg) (Sample.world Sample.cfg)
              (Push [Sample.metric 1; Sample.metric 2; Sample.metric 3]))
  ∧ ∀ ops,
      heap (run (Sample.stream Sample.cfg) ops
              (step (Sample.stream Sample.cfg) (Sample.world Sample.cfg)
                 (Push [Sample.metric 1; Sample.metric 2; Sample.metric 3])))
        !! 2%positive
      = Some (pending (Sample.stream Sample.cfg) (Sample.world Sample.cfg)
                (Push [Sample.metric 1; Sample.metric 2; Sample.metric 3])).
Proof.
  apply (delivered_snapshot_is_isolated (Sample.stream Sample.cfg)
           (Sample.world Sample.cfg)
           (Push [Sample.metric 1; Sample.metric 2; Sample.metric 3])
           2%positive).
  - apply new_live.
  - reflexivity.
Defined.

(** Whatever the buffer held before, one call leaves fewer than T
    elements in it when T ≥ 1. *)
Lemma step_below this w o :
  1 ≤ metricsBufferSize (config this) →
  Z.of_nat (length (read (buffer this) (step this w o)))
  < metricsBufferSize (config this).
Proof.
  intros T1. destruct o as [metrics| |]; cbn.
  - unfold push. case_match eqn:E.
    + rewrite flush_buffer_empty. cbn. lia.
    + apply Z.leb_gt in E. exact E.
  - rewrite flush_buffer_empty. cbn. lia.
  - unfold clear. rewrite read_write_eq. cbn. lia.
Qed.

(** C9.  With a threshold T ≥ 1, after each call of any sequence of
    pushes, flushes and clears on a newly constructed stream the buffer
    holds fewer than T elements. *)
Theorem buffer_stays_below_threshold cfg w0 ops n :
  1 ≤ metricsBufferSize cfg →
  Z.of_nat (length (read (buffer (new cfg w0).1)
                      (run (new cfg w0).1 (take n ops) (new cfg w0).2)))
  < metricsBufferSize cfg.
Proof.
  intros T1.
  destruct (take n ops) as [|o l _] eqn:E using rev_ind.
  - change (run (new cfg w0).1 [] (new cfg w0).2) with (new cfg w0).2.
    rewrite new_buffer_empty. cbn. lia.
  - rewrite run_snoc. apply (step_below (new cfg w0).1). exact T1.
Qed.

Lemma buffer_stays_below_threshold_witness :
  Z.of_nat (length (read (buffer (Sample.stream Sample.cfg))
                      (run (Sample.stream Sample.cfg)
                         (take 2 [Push [Sample.metric 1; Sample.metric 2];
                                  Push [Sample.metric 3];
                                  Push [Sample.metric 4]])
                         (Sample.world Sample.cfg))))
  < 3.
Proof.
  apply (buffer_stays_below_threshold Sample.cfg nothing
           [Push [Sample.metric 1; Sample.metric 2];
            Push [Sample.metric 3];
            Push [Sample.metric 4]] 2).
  vm_compute. discriminate.
Defined.

End StreamProperties.

(* ================================================================== *)
(** ** CpuCollector: further properties of the lifecycle *)

Section CollectorLifecycle.

Import Process CpuCollector.

(** A measurement that fails does so with one of the two range errors
    of [process.cpuUsage]. *)
Lemma measured_thrown this w e :
  measured this w = Thrown e →
  e = RangeError "prevValue.user" ∨ e = RangeError "prevValue.system".
Proof.
  unfold measured, cpuUsage.
  repeat case_match; intros; simplify_eq; eauto.
Qed.

(** [collect] is its two halves in sequence. *)
Lemma collect_split w this :
  collect w this
  = (startUsage ← collectBegin (windowStart w);
     collectResume (windowEnd w) (rebase w) startUsage) this.
Proof.
  unfold collect, collectBegin, collectResume.
  unfold mbind, mret, Method_bind, Method_ret, throw, call,
    this_isRunning, this_lastUsage, this_config, set_lastUsage.
  cbn. destruct (isRunning this); cbn; [|reflexivity].
  destruct (cpuUsage (windowStart w) (lastUsage this)); reflexivity.
Qed.

(** The first half changes nothing on the collector. *)
Lemma collectBegin_state at_ this :
  snd (collectBegin at_ this) = this.
Proof.
  unfold collectBegin.
  unfold mbind, Method_bind, throw, call, this_isRunning, this_lastUsage.
  cbn. destruct (isRunning this); reflexivity.
Qed.

(** On a running collector the first half is the first sample. *)
Lemma collectBegin_running at_ this :
  isRunning this = true →
  collectBegin at_ this = (cpuUsage at_ (lastUsage this), this).
Proof.
  intros R. unfold collectBegin.
  unfold mbind, Method_bind, throw, call, this_isRunning, this_lastUsage.
  cbn. by rewrite R.
Qed.

(** The second half does not look at the running flag: it fails on a
    [startUsage] that [process.cpuUsage] rejects, and otherwise returns
    the two metrics and stores the next baseline. *)
Lemma collectResume_cases endAt rebaseAt startUsage this :
  (∃ e, collectResume endAt rebaseAt startUsage this = (Thrown e, this))
  ∨ collectResume endAt rebaseAt startUsage this
    = (Normal (metricsOf
                 {| user := user (cpu endAt) - user startUsage;
                    system := system (cpu endAt) - system startUsage |}
                 (clock endAt) (config this)),
       {| config := config this; isRunning := isRunning this;
          lastUsage := Some (cpu rebaseAt) |}).
Proof.
  unfold collectResume, cpuUsage.
  unfold mbind, mret, Method_bind, Method_ret, call, this_config,
    set_lastUsage.
  cbn. repeat case_match; simplify_eq; cbn; eauto.
Qed.

Lemma collectResume_valid endAt rebaseAt startUsage this :
  previousValueIsValid (user startUsage) = true →
  previousValueIsValid (system startUsage) = true →
  collectResume endAt rebaseAt startUsage this
  = (Normal (metricsOf
               {| user := user (cpu endAt) - user startUsage;
                  system := system (cpu endAt) - system startUsage |}
               (clock endAt) (config this)),
     {| config := config this; isRunning := isRunning this;
        lastUsage := Some (cpu rebaseAt) |}).
Proof.
  intros Vu Vs. unfold collectResume, cpuUsage.
  unfold mbind, mret, Method_bind, Method_ret, call, this_config,
    set_lastUsage.
  cbn. rewrite Vu, Vs. reflexivity.
Qed.

(** X1.  [collect] does not test the running flag again after its
    wait.  When [stop] runs while a [collect] made on a running collector
    is waiting, that [collect] still returns its two metrics and stores
    a baseline, and the collector ends stopped with a baseline. *)
Theorem stop_during_collect this base at_ endAt rebaseAt :
  isRunning this = true →
  lastUsage this = Some base →
  0 ≤ user base ≤ user (cpu at_) →
  0 ≤ system base ≤ system (cpu at_) →
  user (cpu at_) ≤ MAX_SAFE_INTEGER →
  system (cpu at_) ≤ MAX_SAFE_INTEGER →
  ∃ startUsage mu msys,
    collectBegin at_ this = (Normal startUsage, this)
    ∧ collectResume endAt rebaseAt startUsage (snd (stop this))
      = (Normal [mu; msys],
         {| config := config this; isRunning := false;
            lastUsage := Some (cpu rebaseAt) |})
    ∧ raw <$> metadata mu = Some (user (cpu endAt) - user startUsage)
    ∧ raw <$> metadata msys = Some (system (cpu endAt) - system startUsage).
Proof.
  intros R Hb Hu Hs Hum Hsm.
  assert (V : ∀ x y, 0 ≤ x ≤ y → y ≤ MAX_SAFE_INTEGER →
              previousValueIsValid x = true
              ∧ previousValueIsValid (y - x) = true).
  { intros x y Hxy Hy. unfold previousValueIsValid.
    rewrite !andb_true_iff, !Z.leb_le. lia. }
  destruct (V _ _ Hu Hum) as [Bu Su], (V _ _ Hs Hsm) as [Bs Ss].
  exists {| user := user (cpu at_) - user base;
            system := system (cpu at_) - system base |}.
  eexists _, _. split; [|split].
  - rewrite collectBegin_running, Hb by assumption.
    unfold cpuUsage. by rewrite Bu, Bs.
  - rewrite collectResume_valid by assumption.
    rewrite stop_running by assumption. reflexivity.
  - split; reflexivity.
Qed.

Lemma stop_during_collect_witness :
  ∃ startUsage mu msys,
    collectBegin (Sample.instant 10 1200 600) Sample.started
    = (Normal startUsage, Sample.started)
    ∧ collectResume (Sample.instant 510 1500 700)
        (Sample.instant 510 1501 700) startUsage (snd (stop Sample.started))
      = (Normal [mu; msys],
         {| config := config Sample.started; isRunning := false;
            lastUsage := Some (cpu (Sample.instant 510 1501 700)) |})
    ∧ raw <$> metadata mu = Some (1500 - user startUsage)
    ∧ raw <$> metadata msys = Some (700 - system startUsage).
Proof.
  apply (stop_during_collect Sample.started
           {| user := 1000; system := 500 |}
           (Sample.instant 10 1200 600) (Sample.instant 510 1500 700)
           (Sample.instant 510 1501 700)).
  - reflexivity.
  - reflexivity.
  - vm_compute. split; discriminate.
  - vm_compute. split; discriminate.
  - vm_compute. discriminate.
  - vm_compute. discriminate.
Defined.

(** X2.  A [collect] that throws, for whatever reason, leaves the
    collector exactly as it was. *)
Theorem collect_failure_changes_nothing w this e this' :
  collect w this = (Thrown e, this') → this' = this.
Proof.
  destruct (isRunning this) eqn:R.
  - rewrite collect_running by assumption.
    destruct (measured this w); intros E; by simplify_eq.
  - rewrite collect_stopped by assumption. intros E. by simplify_eq.
Qed.

Lemma collect_failure_changes_nothing_witness :
  snd (collect Sample.rewound Sample.started) = Sample.started.
Proof.
  apply (collect_failure_changes_nothing Sample.rewound Sample.started
           (RangeError "prevValue.user")
           (snd (collect Sample.rewound Sample.started))).
  vm_compute. reflexivity.
Defined.

(** X3.  [collect] throws the must-be-started error exactly when the
    collector is not running; on a running collector the only errors it
    can throw are the two range errors of [process.cpuUsage]. *)
Theorem collect_not_started_iff w this :
  (fst (collect w this) = Thrown notStarted ↔ isRunning this = false)
  ∧ (isRunning this = true →
     ∀ e, fst (collect w this) = Thrown e →
          e = RangeError "prevValue.user"
          ∨ e = RangeError "prevValue.system").
Proof.
  assert (Run : isRunning this = true →
                ∀ e, fst (collect w this) = Thrown e →
                     e = RangeError "prevValue.user"
                     ∨ e = RangeError "prevValue.system").
  { intros R e. rewrite collect_running by assumption.
    destruct (measured this w) as [d|e'] eqn:M; cbn; [discriminate|].
    intros [= <-]. by apply measured_thrown in M. }
  split; [|exact Run]. split.
  - destruct (isRunning this) eqn:R; [|done].
    intros E. destruct (Run eq_refl _ E); discriminate.
  - intros R. by rewrite collect_stopped.
Qed.

Lemma collect_not_started_iff_witness :
  fst (collect Sample.rewound Sample.started)
  = Thrown (RangeError "prevValue.user")
  ∧ (RangeError "prevValue.user" = RangeError "prevValue.user"
     ∨ RangeError "prevValue.user" = RangeError "prevValue.system").
Proof.
  split; [vm_compute; reflexivity|].
  apply (proj2 (collect_not_started_iff Sample.rewound Sample.started)).
  - reflexivity.
  - vm_compute. reflexivity.
Defined.

(** X4.  On a running collector with a stored baseline, the raw deltas
    of a [collect] that returns are the usage of the window plus that
    baseline, category by category. *)
Theorem collect_raw_is_window_plus_baseline w this base ms this' :
  lastUsage this = Some base →
  collect w this = (Normal ms, this') →
  ∃ mu msys,
    ms = [mu; msys]
    ∧ raw <$> metadata mu = Some (user (windowUsage w) + user base)
    ∧ raw <$> metadata msys = Some (system (windowUsage w) + system base).
Proof.
  intros Hb E. apply collect_normal in E as (d & Hd & -> & _).
  destruct (measured_with_baseline this w base d Hb Hd) as [Hu Hs].
  eexists _, _. split; [reflexivity|]. cbn. by rewrite Hu, Hs.
Qed.

Lemma collect_raw_is_window_plus_baseline_witness :
  ∃ mu msys,
    metricsOf {| user := 1300; system := 600 |} 510 Sample.cfg = [mu; msys]
    ∧ raw <$> metadata mu = Some (user (windowUsage Sample.window) + 1000)
    ∧ raw <$> metadata msys
      = Some (system (windowUsage Sample.window) + 500).
Proof.
  apply (collect_raw_is_window_plus_baseline Sample.window Sample.started
           {| user := 1000; system := 500 |}
           (metricsOf {| user := 1300; system := 600 |} 510 Sample.cfg)
           (snd (collect Sample.window Sample.started))).
  - reflexivity.
  - vm_compute. reflexivity.
Defined.

(** X5.  On a stopped collector without a baseline, [start] followed by
    [stop] restores the collector. *)
Theorem start_then_stop_restores at_ this :
  isRunning this = false →
  lastUsage this = None →
  (start at_ ;; stop) this = (Normal tt, this).
Proof.
  intros R B.
  change ((start at_ ;; stop) this)
    with (Method_bind _ _ (λ _, stop) (start at_) this).
  unfold Method_bind. rewrite start_stopped by assumption.
  rewrite stop_running by reflexivity. cbn.
  destruct this as [c r l]. cbn in *. by subst.
Qed.

Lemma start_then_stop_restores_witness :
  (start (Sample.instant 0 1000 500) ;; stop) (new Sample.cfg)
  = (Normal tt, new Sample.cfg).
Proof.
  apply (start_then_stop_restores (Sample.instant 0 1000 500)
           (new Sample.cfg)); reflexivity.
Defined.

(** X6.  [stop] followed by [start] ends, from any state, in a running
    collector whose baseline is the counters read by that [start]. *)
Theorem stop_then_start_rebaselines at_ this :
  (stop ;; start at_) this
  = (Normal tt, {| config := config this; isRunning := true;
                   lastUsage := Some (cpu at_) |}).
Proof.
  change ((stop ;; start at_) this)
    with (Method_bind _ _ (λ _, start at_) stop this).
  unfold Method_bind. destruct (isRunning this) eqn:R.
  - rewrite stop_running by assumption. by rewrite start_stopped.
  - rewrite stop_stopped by assumption. by rewrite start_stopped.
Qed.

(** One step keeps the configuration, and keeps a running collector
    with a baseline. *)
Lemma afterEvent_keeps cfg this e :
  config this = cfg ∧ (isRunning this = true → is_Some (lastUsage this)) →
  config (afterEvent this e) = cfg
  ∧ (isRunning (afterEvent this e) = true
     → is_Some (lastUsage (afterEvent this e))).
Proof.
  intros [C I]. destruct e as [at_| |at_|endAt rebaseAt s]; cbn.
  - destruct (isRunning this) eqn:R.
    + rewrite start_running by assumption. cbn. rewrite R. done.
    + rewrite start_stopped by assumption. cbn. eauto.
  - destruct (isRunning this) eqn:R.
    + rewrite stop_running by assumption. cbn. done.
    + rewrite stop_stopped by assumption. cbn. rewrite R. done.
  - rewrite collectBegin_state. done.
  - destruct (collectResume_cases endAt rebaseAt s this) as [[x ->]| ->];
      cbn; eauto.
Qed.

(** X7.  Whatever is done to a newly constructed collector, calls made
    in any order, throwing or not, and also while a [collect] waits, the
    configuration stays the one given to the constructor and a running
    collector holds a baseline. *)
Theorem running_has_baseline cfg es :
  config (afterEvents es (new cfg)) = cfg
  ∧ (isRunning (afterEvents es (new cfg)) = true
     → is_Some (lastUsage (afterEvents es (new cfg)))).
Proof.
  induction es as [|e es IH] using rev_ind.
  - cbn. done.
  - unfold afterEvents in *. rewrite foldl_snoc.
    by apply afterEvent_keeps.
Qed.

Lemma running_has_baseline_witness :
  is_Some (lastUsage
             (afterEvents
                [Started (Sample.instant 0 1000 500);
                 CollectBegan (Sample.instant 10 1200 600);
                 Stopped;
                 Started (Sample.instant 20 1300 650);
                 CollectResumed (Sample.instant 510 1500 700)
                   (Sample.instant 510 1501 700)
                   {| user := 200; system := 100 |}]
                (new Sample.cfg))).
Proof.
  apply (proj2 (running_has_baseline Sample.cfg
                  [Started (Sample.instant 0 1000 500);
                   CollectBegan (Sample.instant 10 1200 600);
                   Stopped;
                   Started (Sample.instant 20 1300 650);
                   CollectResumed (Sample.instant 510 1500 700)
                     (Sample.instant 510 1501 700)
                     {| user := 200; system := 100 |}])).
  reflexivity.
Defined.

Lemma collect_succeeds_witness :
  ∃ ms this', collect Sample.window Sample.started = (Normal ms, this').
Proof.
  apply (collect_succeeds Sample.window Sample.started
           {| user := 1000; system := 500 |}).
  - reflexivity.
  - reflexivity.
  - vm_compute. split; discriminate.
  - vm_compute. split; discriminate.
  - vm_compute. discriminate.
  - vm_compute. discriminate.
Defined.

End CollectorLifecycle.

(* ================================================================== *)
(** ** MetricsStream: further properties of the buffer protocol *)

Section StreamAccounting.

Import MetricsStream.

Implicit Types (this that : MetricsStream.t) (w : World) (r : positive)
  (items metrics : list Metric) (o : Op) (ops : list Op).

Lemma read_keeps this w o r :
  is_Some (heap w !! r) → r ≠ buffer this →
  read r (step this w o) = read r w.
Proof. intros In Ne. unfold read. by rewrite step_keeps. Qed.

(** What one call does to the notifications and to the buffer. *)
Lemma step_cases this w o :
  live this w →
  (emitted (step this w o) = emitted w
   ∧ read (buffer this) (step this w o)
     = match o with Clear => [] | _ => pending this w o end)
  ∨ (∃ snapshot,
       heap w !! snapshot = None
       ∧ snapshot ≠ buffer this
       ∧ emitted (step this w o) = emitted w ++ [("data", snapshot)]
       ∧ heap (step this w o) !! snapshot = Some (pending this w o)
       ∧ read (buffer this) (step this w o) = []
       ∧ pending this w o ≠ []
       ∧ o ≠ Clear).
Proof.
  intros L.
  assert (Ne : ∀ s, heap w !! s = None → s ≠ buffer this).
  { intros s Hs ->. destruct L as [x Hx]. congruence. }
  destruct o as [metrics| |]; cbn.
  - destruct (Z.le_gt_cases (metricsBufferSize (config this))
                (Z.of_nat (length (read (buffer this) w ++ metrics))))
      as [Hr|Hb].
    + destruct (read (buffer this) w ++ metrics) as [|m l] eqn:E.
      * left. rewrite push_reaching by (rewrite E; exact Hr).
        rewrite E, flush_empty by apply read_write_eq.
        split; [reflexivity|apply read_write_eq].
      * right.
        destruct (push_reaching_effect this metrics w L)
          as (s & Fs & Es & Hs & B).
        { rewrite E. exact Hr. }
        { rewrite E. done. }
        exists s. rewrite E in Hs. repeat split; auto.
    + left. rewrite push_below by lia.
      split; [reflexivity|apply read_write_eq].
  - destruct (read (buffer this) w) as [|m l] eqn:E.
    + left. rewrite flush_empty by assumption. by rewrite E.
    + right.
      destruct (flush_nonempty_effect this w L) as (s & Fs & Es & Hs & B).
      { rewrite E. done. }
      exists s. rewrite E in Hs. repeat split; auto.
  - left. split; [reflexivity|apply read_write_eq].
Qed.

(** The arrays delivered before a call read the same after it. *)
Lemma delivered_keeps this w o :
  settled this w →
  (λ e, read e.2 (step this w o)) <$> emitted w
  = (λ e, read e.2 w) <$> emitted w.
Proof.
  intros [_ F]. apply Forall_fmap_ext_1.
  eapply Forall_impl; [exact F|].
  intros e [In Ne]. by apply read_keeps.
Qed.

Lemma step_settled this w o : settled this w → settled this (step this w o).
Proof.
  intros S. pose proof S as [L F]. split; [by apply step_live|].
  assert (Old : Forall (λ e, is_Some (heap (step this w o) !! e.2)
                             ∧ e.2 ≠ buffer this) (emitted w)).
  { eapply Forall_impl; [exact F|]. intros e [In Ne].
    by rewrite step_keeps. }
  destruct (step_cases this w o L)
    as [[Em _]|(s & Fs & Ne & Em & Hs & _)]; rewrite Em.
  - exact Old.
  - apply Forall_app. split; [exact Old|].
    apply Forall_singleton. cbn. rewrite Hs. eauto.
Qed.

(** The metrics delivered and those still buffered, across one call. *)
Lemma step_account this w o :
  settled this w →
  delivered (step this w o) ++ read (buffer this) (step this w o)
  = delivered w
    ++ match o with Clear => [] | _ => pending this w o end.
Proof.
  intros S. pose proof S as [L _]. unfold delivered.
  destruct (step_cases this w o L)
    as [[Em B]|(s & Fs & Ne & Em & Hs & B & _ & NC)]; rewrite Em, B.
  - by rewrite delivered_keeps.
  - rewrite fmap_app, concat_app, delivered_keeps by assumption. cbn.
    rewrite (read_live _ _ _ Hs), !app_nil_r.
    by destruct o.
Qed.

Lemma pending_batch this w o :
  pending this w o = read (buffer this) w ++ batch o.
Proof. destruct o; cbn; by rewrite ?app_nil_r. Qed.

Lemma new_settled cfg : settled (new cfg nothing).1 (new cfg nothing).2.
Proof. split; [apply new_live|]. cbn. constructor. Qed.

(** X9.  As long as [clear] is not called, nothing is lost, duplicated
    or reordered: the metrics delivered so far followed by those still
    in the buffer are the metrics that were there before followed by
    all the metrics pushed, in the order of the pushes. *)
Theorem nothing_lost_without_clear this ops w :
  settled this w →
  Clear ∉ ops →
  delivered (run this ops w) ++ read (buffer this) (run this ops w)
  = delivered w ++ read (buffer this) w ++ pushed ops.
Proof.
  revert w. induction ops as [|o ops IH]; intros w S NC.
  - cbn. by rewrite app_nil_r.
  - apply not_elem_of_cons in NC as [No NC].
    change (run this (o :: ops) w) with (run this ops (step this w o)).
    rewrite IH by (try apply step_settled; assumption).
    rewrite app_assoc, step_account by assumption.
    unfold pushed. cbn. rewrite pending_batch.
    destruct o; [|by rewrite <- !app_assoc..|done].
    by rewrite <- !app_assoc.
Qed.

Lemma nothing_lost_without_clear_witness :
  delivered (run (Sample.stream Sample.cfg)
               [Push [Sample.metric 1; Sample.metric 2];
                Push [Sample.metric 3]; Push [Sample.metric 4]]
               (Sample.world Sample.cfg))
  ++ read (buffer (Sample.stream Sample.cfg))
       (run (Sample.stream Sample.cfg)
          [Push [Sample.metric 1; Sample.metric 2];
           Push [Sample.metric 3]; Push [Sample.metric 4]]
          (Sample.world Sample.cfg))
  = delivered (Sample.world Sample.cfg)
    ++ read (buffer (Sample.stream Sample.cfg)) (Sample.world Sample.cfg)
    ++ pushed [Push [Sample.metric 1; Sample.metric 2];
               Push [Sample.metric 3]; Push [Sample.metric 4]].
Proof.
  apply (nothing_lost_without_clear (Sample.stream Sample.cfg)
           [Push [Sample.metric 1; Sample.metric 2];
            Push [Sample.metric 3]; Push [Sample.metric 4]]
           (Sample.world Sample.cfg)).
  - apply new_settled.
  - intros H. repeat (apply elem_of_cons in H as [H|H]; [discriminate|]).
    by apply elem_of_nil in H.
Defined.

(** X10.  With [clear] calls too, nothing is invented, duplicated or
    reordered: the metrics delivered so far followed by those still in
    the buffer are obtained from the earlier ones followed by all the
    metrics pushed by deleting some. *)
Theorem nothing_invented this ops w :
  settled this w →
  delivered (run this ops w) ++ read (buffer this) (run this ops w)
  `sublist_of` delivered w ++ read (buffer this) w ++ pushed ops.
Proof.
  revert w. induction ops as [|o ops IH]; intros w S.
  - cbn. by rewrite app_nil_r.
  - change (run this (o :: ops) w) with (run this ops (step this w o)).
    etrans; [apply IH; by apply step_settled|].
    rewrite app_assoc, step_account by assumption.
    unfold pushed. cbn. rewrite !app_assoc.
    apply sublist_app; [|done]. rewrite pending_batch.
    destruct o; cbn; rewrite ?app_nil_r, <- ?app_assoc; try done.
    apply sublist_inserts_r. done.
Qed.

Lemma nothing_invented_witness :
  delivered (run (Sample.stream Sample.cfg)
               [Push [Sample.metric 1]; Clear; Push [Sample.metric 2]; Flush]
               (Sample.world Sample.cfg))
  ++ read (buffer (Sample.stream Sample.cfg))
       (run (Sample.stream Sample.cfg)
          [Push [Sample.metric 1]; Clear; Push [Sample.metric 2]; Flush]
          (Sample.world Sample.cfg))
  `sublist_of`
  delivered (Sample.world Sample.cfg)
  ++ read (buffer (Sample.stream Sample.cfg)) (Sample.world Sample.cfg)
  ++ pushed [Push [Sample.metric 1]; Clear; Push [Sample.metric 2]; Flush].
Proof.
  apply (nothing_invented (Sample.stream Sample.cfg)
           [Push [Sample.metric 1]; Clear; Push [Sample.metric 2]; Flush]
           (Sample.world Sample.cfg)).
  apply new_settled.
Defined.

End StreamAccounting.

Section StreamNotifications.

Import MetricsStream.

Implicit Types (this that : MetricsStream.t) (w : World) (r : positive)
  (items metrics : list Metric) (o : Op) (ops : list Op).

(** X11.  Notifications are only ever added, at the end; each one added
    is a "data" notification, and the array it delivered is not empty,
    however many calls follow. *)
Theorem notifications_are_nonempty_batches this ops w :
  live this w →
  ∃ added,
    emitted (run this ops w) = emitted w ++ added
    ∧ Forall (λ e, e.1 = "data" ∧ read e.2 (run this ops w) ≠ []) added.
Proof.
  revert w. induction ops as [|o ops IH]; intros w L.
  - exists []. cbn. by rewrite app_nil_r.
  - change (run this (o :: ops) w) with (run this ops (step this w o)).
    destruct (IH (step this w o)) as (added & Em & F); [by apply step_live|].
    destruct (step_cases this w o L)
      as [[Eo _]|(s & Fs & Ne & Eo & Hs & _ & NE & _)].
    + exists added. by rewrite Em, Eo.
    + exists (("data", s) :: added). rewrite Em, Eo, <- app_assoc.
      split; [done|]. constructor; [|done]. cbn. split; [done|].
      unfold read. rewrite run_keeps, Hs; [done| |done].
      rewrite Hs. eauto.
Qed.

Lemma notifications_are_nonempty_batches_witness :
  ∃ added,
    emitted (run (Sample.stream Sample.cfg)
               [Push [Sample.metric 1; Sample.metric 2]; Flush; Flush]
               (Sample.world Sample.cfg))
    = emitted (Sample.world Sample.cfg) ++ added
    ∧ Forall (λ e, e.1 = "data"
                   ∧ read e.2 (run (Sample.stream Sample.cfg)
                                 [Push [Sample.metric 1; Sample.metric 2];
                                  Flush; Flush]
                                 (Sample.world Sample.cfg)) ≠ []) added.
Proof.
  apply (notifications_are_nonempty_batches (Sample.stream Sample.cfg)
           [Push [Sample.metric 1; Sample.metric 2]; Flush; Flush]
           (Sample.world Sample.cfg)).
  apply new_live.
Defined.

(** X12.  When a [push] into a buffer that holds fewer elements than the
    threshold emits, the batch it delivers is the old buffer followed by
    the pushed metrics, and its length is at least the threshold and
    less than the threshold plus the number of metrics pushed. *)
Theorem push_batch_size this metrics w e snapshot :
  live this w →
  Z.of_nat (length (read (buffer this) w)) < metricsBufferSize (config this) →
  emitted (push this metrics w) = emitted w ++ [(e, snapshot)] →
  read snapshot (push this metrics w) = read (buffer this) w ++ metrics
  ∧ metricsBufferSize (config this)
    ≤ Z.of_nat (length (read snapshot (push this metrics w)))
    < metricsBufferSize (config this) + Z.of_nat (length metrics).
Proof.
  intros L Lt Em.
  assert (Bound : Z.of_nat (length (read (buffer this) w ++ metrics))
                  < metricsBufferSize (config this)
                    + Z.of_nat (length metrics)).
  { rewrite length_app. lia. }
  destruct (Z.le_gt_cases (metricsBufferSize (config this))
              (Z.of_nat (length (read (buffer this) w ++ metrics))))
    as [Hr|Hb].
  - destruct (step_cases this w (Push metrics) L)
      as [[Eo _]|(s & _ & _ & Eo & Hs & _)]; cbn in *.
    + rewrite Eo in Em. apply (f_equal length) in Em.
      rewrite length_app in Em. cbn in Em. lia.
    + rewrite Eo in Em. apply app_inj_tail in Em as [_ [= <- <-]].
      rewrite (read_live _ _ _ Hs). split; [done|]. lia.
  - rewrite push_below in Em by lia. cbn in Em.
    apply (f_equal length) in Em. rewrite length_app in Em. cbn in Em. lia.
Qed.

Lemma push_batch_size_witness :
  read 2%positive
    (push (Sample.stream Sample.cfg)
       [Sample.metric 2; Sample.metric 3; Sample.metric 4]
       (push (Sample.stream Sample.cfg) [Sample.metric 1]
          (Sample.world Sample.cfg)))
  = read (buffer (Sample.stream Sample.cfg))
      (push (Sample.stream Sample.cfg) [Sample.metric 1]
         (Sample.world Sample.cfg))
    ++ [Sample.metric 2; Sample.metric 3; Sample.metric 4]
  ∧ 3 ≤ Z.of_nat (length (read 2%positive
                            (push (Sample.stream Sample.cfg)
                               [Sample.metric 2; Sample.metric 3;
                                Sample.metric 4]
                               (push (Sample.stream Sample.cfg)
                                  [Sample.metric 1]
                                  (Sample.world Sample.cfg)))))
    < 3 + 3.
Proof.
  apply (push_batch_size (Sample.stream Sample.cfg)
           [Sample.metric 2; Sample.metric 3; Sample.metric 4]
           (push (Sample.stream Sample.cfg) [Sample.metric 1]
              (Sample.world Sample.cfg))
           "data" 2%positive).
  - vm_compute. eauto.
  - vm_compute. reflexivity.
  - reflexivity.
Defined.

(** Writing back what an array holds changes nothing. *)
Lemma write_same this w :
  live this w → write (buffer this) (read (buffer this) w) w = w.
Proof.
  intros [x Hx]. unfold write, read. rewrite Hx. cbn.
  rewrite insert_id by assumption. by destruct w.
Qed.

(** X13.  Pushing an empty batch into a buffer that holds fewer elements
    than the threshold changes nothing at all. *)
Theorem push_empty_batch this w :
  live this w →
  Z.of_nat (length (read (buffer this) w)) < metricsBufferSize (config this) →
  push this [] w = w.
Proof.
  intros L Lt. rewrite push_below by (rewrite app_nil_r; exact Lt).
  rewrite app_nil_r. by apply write_same.
Qed.

Lemma push_empty_batch_witness :
  push (Sample.stream Sample.cfg) [] (Sample.world Sample.cfg)
  = Sample.world Sample.cfg.
Proof.
  apply (push_empty_batch (Sample.stream Sample.cfg)
           (Sample.world Sample.cfg)).
  - apply new_live.
  - vm_compute. reflexivity.
Defined.

(** X14.  Two streams do not share a buffer: a stream constructed while
    another one exists gets a different buffer, and no sequence of calls
    on the new stream changes what the buffer of the other holds. *)
Theorem streams_do_not_interfere this w cfg :
  live this w →
  buffer (new cfg w).1 ≠ buffer this
  ∧ ∀ ops, read (buffer this) (run (new cfg w).1 ops (new cfg w).2)
           = read (buffer this) w.
Proof.
  intros L.
  assert (Ne : buffer (new cfg w).1 ≠ buffer this).
  { cbn. intros E. pose proof (alloc_fresh [] w) as F. cbn in F.
    rewrite E in F. destruct L as [x Hx]. congruence. }
  split; [exact Ne|]. intros ops.
  assert (K : heap (new cfg w).2 !! buffer this = heap w !! buffer this).
  { cbn. by rewrite lookup_insert_ne. }
  unfold read. rewrite run_keeps, K; [done| |done].
  rewrite K. exact L.
Qed.

Lemma streams_do_not_interfere_witness :
  buffer (new Sample.eager (Sample.world Sample.cfg)).1
  ≠ buffer (Sample.stream Sample.cfg)
  ∧ ∀ ops,
      read (buffer (Sample.stream Sample.cfg))
        (run (new Sample.eager (Sample.world Sample.cfg)).1 ops
           (new Sample.eager (Sample.world Sample.cfg)).2)
      = read (buffer (Sample.stream Sample.cfg)) (Sample.world Sample.cfg).
Proof.
  apply (streams_do_not_interfere (Sample.stream Sample.cfg)
           (Sample.world Sample.cfg) Sample.eager).
  apply new_live.
Defined.

(** X15.  A [flush] right after a [flush] or after a [clear] does
    nothing: it emits nothing and leaves the world as it found it. *)
Theorem flush_after_flush_or_clear this w :
  flush this (flush this w) = flush this w
  ∧ flush this (clear this w) = clear this w.
Proof.
  split; apply flush_empty.
  - apply flush_buffer_empty.
  - apply read_write_eq.
Qed.

(** X16.  Below the threshold, two pushes in a row are one push of the
    two batches joined. *)
Theorem push_twice_below_threshold this a b w :
  Z.of_nat (length (read (buffer this) w ++ a ++ b))
    < metricsBufferSize (config this) →
  push this b (push this a w) = push this (a ++ b) w.
Proof.
  intros Lt. rewrite !length_app in Lt.
  rewrite (push_below this a w) by (rewrite length_app; lia).
  rewrite push_below; rewrite read_write_eq.
  - rewrite push_below by (rewrite !length_app; lia).
    unfold write. cbn. by rewrite insert_insert_eq, app_assoc.
  - rewrite !length_app. lia.
Qed.

Lemma push_twice_below_threshold_witness :
  push (Sample.stream Sample.cfg) [Sample.metric 2]
    (push (Sample.stream Sample.cfg) [Sample.metric 1]
       (Sample.world Sample.cfg))
  = push (Sample.stream Sample.cfg) ([Sample.metric 1] ++ [Sample.metric 2])
      (Sample.world Sample.cfg).
Proof.
  apply (push_twice_below_threshold (Sample.stream Sample.cfg)
           [Sample.metric 1] [Sample.metric 2] (Sample.world Sample.cfg)).
  vm_compute. reflexivity.
Defined.

End StreamNotifications.
